(** * CDP Network Audit: the submission form of [MyPackage/MyGui.py]

    A shallow embedding of [MyGUIClass]: the Tk variables and widgets it
    owns, its [validation] callback with the [try]/[except ValueError]
    around the [if]/[elif] chain, [get_folder_path], and the part of the
    Python standard library the chain calls ([ipaddress.ip_address]). *)

From Stdlib Require Import Bool Arith ZArith List String Ascii.
From Stdlib Require HexString.
Import ListNotations.
Local Open Scope string_scope.

Set Implicit Arguments.

(** ** Python values and exceptions *)

(** The exceptions that occur in the program.  [AddressValueError] and
    [NetmaskValueError] are subclasses of [ValueError] in [ipaddress.py];
    [SystemExit] is what [sys.exit()] raises.  Messages are not kept: no
    handler of the program reads them. *)
Inductive exn : Type :=
| ValueError
| AddressValueError
| NetmaskValueError
| SystemExit.

(** [isinstance(e, ValueError)], which is what [except ValueError] tests. *)
Definition isinstance_ValueError (e : exn) : bool :=
  match e with
  | ValueError | AddressValueError | NetmaskValueError => true
  | SystemExit => false
  end.

Inductive result (A : Type) : Type :=
| Val (a : A)
| Exc (e : exn).
Arguments Val {A} a.
Arguments Exc {A} e.

Definition rbind {A B} (r : result A) (k : A -> result B) : result B :=
  match r with
  | Val a => k a
  | Exc e => Exc e
  end.

Declare Scope result_scope.
Delimit Scope result_scope with result.
Notation "x <~ r ;; k" := (rbind r (fun x => k))
  (at level 61, r at next level, right associativity) : result_scope.
Notation "' p <~ r ;; k" := (rbind r (fun p => k))
  (at level 61, p pattern, r at next level, right associativity)
  : result_scope.

(** Truth value of a [str]: the empty string is the only falsy one. *)
Definition bool_str (s : string) : bool :=
  match s with
  | EmptyString => false
  | String _ _ => true
  end.

(** [c in s] for a one-character [c]. *)
Fixpoint contains (c : ascii) (s : string) : bool :=
  match s with
  | EmptyString => false
  | String a s' => Ascii.eqb a c || contains c s'
  end.

(** [s.split(sep)] for a one-character separator: always at least one
    part, and [''.split(sep) == ['']]. *)
Fixpoint split (sep : ascii) (s : string) : list string :=
  match s with
  | EmptyString => [EmptyString]
  | String c s' =>
      if Ascii.eqb c sep then EmptyString :: split sep s'
      else match split sep s' with
           | [] => [String c EmptyString]
           | p :: ps => String c p :: ps
           end
  end.

(** [s.partition(sep)]: the text before the first [sep], whether [sep] was
    found, and the text after it. *)
Fixpoint partition (sep : ascii) (s : string) : string * bool * string :=
  match s with
  | EmptyString => (EmptyString, false, EmptyString)
  | String c s' =>
      if Ascii.eqb c sep then (EmptyString, true, s')
      else let '(a, found, b) := partition sep s' in (String c a, found, b)
  end.

Fixpoint forallb_str (p : ascii -> bool) (s : string) : bool :=
  match s with
  | EmptyString => true
  | String c s' => p c && forallb_str p s'
  end.

Definition is_ascii_digit (c : ascii) : bool :=
  (48 <=? nat_of_ascii c)%nat && (nat_of_ascii c <=? 57)%nat.

Definition hex_value (c : ascii) : option Z :=
  let n := nat_of_ascii c in
  if ((48 <=? n) && (n <=? 57))%nat then Some (Z.of_nat (n - 48))
  else if ((65 <=? n) && (n <=? 70))%nat then Some (Z.of_nat (n - 55))
  else if ((97 <=? n) && (n <=? 102))%nat then Some (Z.of_nat (n - 87))
  else None.

(** [int(s, 10)] on a string of ASCII digits. *)
Definition int10 (s : string) : Z :=
  fold_left (fun acc c => 10 * acc + Z.of_nat (nat_of_ascii c - 48))%Z
            (list_ascii_of_string s) 0%Z.

(** [int(s, 16)] on a string of hexadecimal digits; the empty string is
    not a number. *)
Definition int16 (s : string) : result Z :=
  if bool_str s then
    Val (fold_left (fun acc c => 16 * acc + match hex_value c with
                                            | Some d => d
                                            | None => 0
                                            end)%Z
                   (list_ascii_of_string s) 0%Z)
  else Exc ValueError.

(** ['%x' % n]. *)
Definition format_x (n : Z) : string :=
  match n with
  | Z0 => "0"
  | Zpos p => HexString.Raw.of_pos p ""
  | Zneg p => String "-" (HexString.Raw.of_pos p "")
  end.

(** [for i in idx: s = body(i, s)], where the body may raise. *)
Fixpoint for_range {S} (idx : list nat) (body : nat -> S -> result S) (s : S)
  : result S :=
  match idx with
  | [] => Val s
  | i :: idx' => rbind (body i s) (for_range idx' body)
  end.

(** ** The standard library's [ipaddress.ip_address] on a [str]

    Transcribed from CPython's [Lib/ipaddress.py] (3.11): the constructors
    [IPv4Address(str)] and [IPv6Address(str)] with the class methods they
    call, and [ip_address], which tries one and then the other. *)
Module ipaddress.

Local Open Scope result_scope.

Inductive address : Type :=
| IPv4Address (_ip : Z)
| IPv6Address (_ip : Z) (_scope_id : option string).

(** Neither class (nor a base class) defines [__bool__] or [__len__], so
    the truth value of an address object is the default one of
    [object]. *)
Definition bool_address (a : address) : bool := true.

Module _BaseV4.

Definition _parse_octet (octet_str : string) : result Z :=
  if negb (bool_str octet_str) then Exc ValueError
  else if negb (forallb_str is_ascii_digit octet_str) then Exc ValueError
  else if (3 <? String.length octet_str)%nat then Exc ValueError
  else if negb (String.eqb octet_str "0")
          && match octet_str with
             | String c _ => Ascii.eqb c "0"
             | EmptyString => false
             end
  then Exc ValueError
  else
    let octet_int := int10 octet_str in
    if (255 <? octet_int)%Z then Exc ValueError else Val octet_int.

(** [int.from_bytes(map(_parse_octet, octets), 'big')]: the octets
    are parsed from left to right and the first failure is raised. *)
Definition int_from_bytes_big (octets : list string) : result Z :=
  for_range (seq 0 (List.length octets))
            (fun i acc =>
               b <~ _parse_octet (nth i octets "") ;;
               Val (Z.lor (Z.shiftl acc 8) b))
            0%Z.

Definition _ip_int_from_string (ip_str : string) : result Z :=
  if negb (bool_str ip_str) then Exc AddressValueError
  else
    let octets := split "." ip_str in
    if negb (List.length octets =? 4)%nat then Exc AddressValueError
    else match int_from_bytes_big octets with
         | Val n => Val n
         | Exc e => if isinstance_ValueError e then Exc AddressValueError
                    else Exc e
         end.

End _BaseV4.

(** [IPv4Address.__init__] on a string: the integer [_ip]. *)
Definition IPv4Address__init__ (addr_str : string) : result Z :=
  if contains "/" addr_str then Exc AddressValueError
  else _BaseV4._ip_int_from_string addr_str.

Module _BaseV6.

Definition _HEXTET_COUNT : nat := 8.

Definition _parse_hextet (hextet_str : string) : result Z :=
  if negb (forallb_str (fun c => match hex_value c with
                                 | Some _ => true
                                 | None => false
                                 end) hextet_str)
  then Exc ValueError
  else if (4 <? String.length hextet_str)%nat then Exc ValueError
  else int16 hextet_str.

Definition _split_scope_id (ip_str : string)
  : result (string * option string) :=
  let '(addr, sep, scope_id) := partition "%" ip_str in
  if negb sep then Val (addr, None)
  else if negb (bool_str scope_id) || contains "%" scope_id
       then Exc AddressValueError
       else Val (addr, Some scope_id).

(** The loop that looks for an empty part strictly between the
    endpoints. *)
Definition find_skip_index (parts : list string) : result (option nat) :=
  for_range (seq 1 (List.length parts - 2))
            (fun i skip_index =>
               if negb (bool_str (nth i parts ""))
               then match skip_index with
                    | Some _ => Exc AddressValueError
                    | None => Val (Some i)
                    end
               else Val skip_index)
            None.

(** The two loops that shift the hextets into the integer. *)
Definition parse_hextets (parts : list string)
           (parts_hi parts_lo : nat) (parts_skipped : Z) : result Z :=
  let step := fun i ip_int =>
                h <~ _parse_hextet (nth i parts "") ;;
                Val (Z.lor (Z.shiftl ip_int 16) h) in
  ip_int <~ for_range (seq 0 parts_hi) step 0%Z ;;
  let ip_int := Z.shiftl ip_int (16 * parts_skipped) in
  for_range (seq (List.length parts - parts_lo) parts_lo) step ip_int.

Definition _ip_int_from_string (ip_str : string) : result Z :=
  if negb (bool_str ip_str) then Exc AddressValueError
  else
    let parts := split ":" ip_str in
    let _min_parts := 3%nat in
    if (List.length parts <? _min_parts)%nat then Exc AddressValueError
    else
      parts <~ (if contains "." (last parts "")
                then match IPv4Address__init__ (last parts "") with
                     | Val ipv4_int =>
                         Val (removelast parts
                                ++ [format_x (Z.land (Z.shiftr ipv4_int 16) 65535);
                                    format_x (Z.land ipv4_int 65535)])%list
                     | Exc e => if isinstance_ValueError e
                                then Exc AddressValueError else Exc e
                     end
                else Val parts) ;;
      let _max_parts := (_HEXTET_COUNT + 1)%nat in
      if (_max_parts <? List.length parts)%nat then Exc AddressValueError
      else
        skip_index <~ find_skip_index parts ;;
        '(parts_hi, parts_lo, parts_skipped) <~
          match skip_index with
          | Some skip_index =>
              let parts_hi := skip_index in
              let parts_lo := (List.length parts - skip_index - 1)%nat in
              parts_hi <~ (if negb (bool_str (nth 0 parts ""))
                           then let parts_hi := (parts_hi - 1)%nat in
                                if (0 <? parts_hi)%nat
                                then Exc AddressValueError
                                else Val parts_hi
                           else Val parts_hi) ;;
              parts_lo <~ (if negb (bool_str (last parts ""))
                           then let parts_lo := (parts_lo - 1)%nat in
                                if (0 <? parts_lo)%nat
                                then Exc AddressValueError
                                else Val parts_lo
                           else Val parts_lo) ;;
              let parts_skipped :=
                (Z.of_nat _HEXTET_COUNT - Z.of_nat (parts_hi + parts_lo))%Z in
              if (parts_skipped <? 1)%Z then Exc AddressValueError
              else Val (parts_hi, parts_lo, parts_skipped)
          | None =>
              if negb (List.length parts =? _HEXTET_COUNT)%nat
              then Exc AddressValueError
              else if negb (bool_str (nth 0 parts ""))
              then Exc AddressValueError
              else if negb (bool_str (last parts ""))
              then Exc AddressValueError
              else Val (List.length parts, 0%nat, 0%Z)
          end ;;
        match parse_hextets parts parts_hi parts_lo parts_skipped with
        | Val n => Val n
        | Exc e => if isinstance_ValueError e then Exc AddressValueError
                   else Exc e
        end.

End _BaseV6.

(** [IPv6Address.__init__] on a string: [_ip] and [_scope_id]. *)
Definition IPv6Address__init__ (addr_str : string)
  : result (Z * option string) :=
  if contains "/" addr_str then Exc AddressValueError
  else
    '(addr_str, scope_id) <~ _BaseV6._split_scope_id addr_str ;;
    ip <~ _BaseV6._ip_int_from_string addr_str ;;
    Val (ip, scope_id).

(** [except (AddressValueError, NetmaskValueError): pass] *)
Definition caught (e : exn) : bool :=
  match e with
  | AddressValueError | NetmaskValueError => true
  | _ => false
  end.

Definition ip_address (address_ : string) : result address :=
  match IPv4Address__init__ address_ with
  | Val ip => Val (IPv4Address ip)
  | Exc e =>
      if caught e then
        match IPv6Address__init__ address_ with
        | Val (ip, scope_id) => Val (IPv6Address ip scope_id)
        | Exc e' => if caught e' then Exc ValueError else Exc e'
        end
      else Exc e
  end.

End ipaddress.

(** ** The Tk side of [MyGUIClass] *)

(** The [state] option of a widget. *)
Inductive widget_state : Type := normal | disabled | readonly.

(** The [StringVar]s that [__init__] creates. *)
Record StringVars : Type := {
  SiteName_var : string;
  Username_var : string;
  password_var : string;
  answer_redo_var : string;
  answer_password_var : string;
  IP_Address1_var : string;
  IP_Address2_var : string;
  FolderPath_var : string;
  JumpServer_var : string;
  Debugging_var : string
}.

(** The widgets that take input or that [validation] configures. *)
Inductive widget : Type :=
| Site_Name_entry | Username_entry | password_entry
| answer_redo | answer_password_entry
| IP_Address1_entry | IP_Address2_entry
| FolderPath_entry | browse_button
| JumpServer | Debugging
| submit_button | cancel_button.

Definition widget_eqb (a b : widget) : bool :=
  match a, b with
  | Site_Name_entry, Site_Name_entry | Username_entry, Username_entry
  | password_entry, password_entry | answer_redo, answer_redo
  | answer_password_entry, answer_password_entry
  | IP_Address1_entry, IP_Address1_entry
  | IP_Address2_entry, IP_Address2_entry
  | FolderPath_entry, FolderPath_entry | browse_button, browse_button
  | JumpServer, JumpServer | Debugging, Debugging
  | submit_button, submit_button | cancel_button, cancel_button => true
  | _, _ => false
  end.

(** A call of [tkinter.messagebox]: both are modal and return once the
    user has acknowledged them. *)
Inductive messagebox : Type :=
| ShowError (title message : string)
| ShowInfo (title message : string).

(** The object [self] with the part of the Tk world it acts on: the
    variables, the state of each widget, whether the root window [master]
    still exists, and the message boxes shown so far (oldest first). *)
Record MyGUIClass : Type := {
  vars : StringVars;
  wstate : widget -> widget_state;
  master_exists : bool;
  shown : list messagebox
}.

(** Statements of a method: they read and update [self] and may raise. *)
Definition action (A : Type) : Type := MyGUIClass -> result A * MyGUIClass.

Definition ret {A} (a : A) : action A := fun g => (Val a, g).

Definition bind {A B} (m : action A) (k : A -> action B) : action B :=
  fun g =>
    match m g with
    | (Val a, g') => k a g'
    | (Exc e, g') => (Exc e, g')
    end.

Definition lift {A} (r : result A) : action A := fun g => (r, g).

Definition raise {A} (e : exn) : action A := fun g => (Exc e, g).

Declare Scope action_scope.
Delimit Scope action_scope with action.
Notation "x <- m ;; k" := (bind m (fun x => k))
  (at level 61, m at next level, right associativity) : action_scope.
Notation "m ;; k" := (bind m (fun _ => k))
  (at level 61, right associativity) : action_scope.
Local Open Scope action_scope.

(** [try: body / except ValueError: handler] *)
Definition try_except_ValueError {A} (body handler : action A) : action A :=
  fun g =>
    match body g with
    | (Val a, g') => (Val a, g')
    | (Exc e, g') => if isinstance_ValueError e then handler g' else (Exc e, g')
    end.

(** An [if]/[elif]/.../[else] statement: the conditions are evaluated in
    order, each one only when all before it were false, and the body of
    the first true one runs. *)
Definition branch : Type := (action bool * action unit)%type.

Fixpoint if_elif (branches : list branch) (orelse : action unit) : action unit :=
  match branches with
  | [] => orelse
  | (test, body) :: branches' =>
      b <- test ;; if b then body else if_elif branches' orelse
  end.

(** [var.get()] *)
Definition get (var : StringVars -> string) : action string :=
  fun g => (Val (var (vars g)), g).

(** The variable an [Entry] was created with ([textvariable=]); its
    [get()] returns the text of that variable. *)
Definition Site_Name_entry_get : action string := get SiteName_var.

(** [self.FolderPath_var.set(value)] *)
Definition FolderPath_var_set (value : string) : action unit :=
  fun g =>
    let v := vars g in
    (Val tt,
     {| vars := {| SiteName_var := SiteName_var v;
                   Username_var := Username_var v;
                   password_var := password_var v;
                   answer_redo_var := answer_redo_var v;
                   answer_password_var := answer_password_var v;
                   IP_Address1_var := IP_Address1_var v;
                   IP_Address2_var := IP_Address2_var v;
                   FolderPath_var := value;
                   JumpServer_var := JumpServer_var v;
                   Debugging_var := Debugging_var v |};
        wstate := wstate g;
        master_exists := master_exists g;
        shown := shown g |}).

(** [w.config(state=st)] *)
Definition config (w : widget) (st : widget_state) : action unit :=
  fun g =>
    (Val tt,
     {| vars := vars g;
        wstate := fun w' => if widget_eqb w' w then st else wstate g w';
        master_exists := master_exists g;
        shown := shown g |}).

(** The state after one more message box. *)
Definition show (d : messagebox) (g : MyGUIClass) : MyGUIClass :=
  {| vars := vars g;
     wstate := wstate g;
     master_exists := master_exists g;
     shown := shown g ++ [d] |}.

Definition showerror (title message : string) : action unit :=
  fun g => (Val tt, show (ShowError title message) g).

Definition showinfo (title message : string) : action unit :=
  fun g => (Val tt, show (ShowInfo title message) g).

(** [self.master.destroy()] *)
Definition master_destroy : action unit :=
  fun g =>
    (Val tt,
     {| vars := vars g;
        wstate := wstate g;
        master_exists := false;
        shown := shown g |}).

(** The line feed of ["\n"]. *)
Definition nl : string := String (ascii_of_nat 10) EmptyString.

(** Every error message ends in the same second line. *)
Definition try_again (line : string) : string :=
  line ++ nl ++ "Please check and try again!".

(** ** [MyGUIClass.validation] *)

(** The [if] and the six [elif]s of lines 114-135, each with its test and
    its body. *)
Definition validation_branches : list branch :=
  [ (s <- Site_Name_entry_get ;; ret (negb (bool_str s)),
     showerror "Error" (try_again "Site Name field is empty"));
    (s <- get Username_var ;; ret (negb (bool_str s)),
     showerror "Error" (try_again "Username field is empty"));
    (s <- get password_var ;; ret (negb (bool_str s)),
     showerror "Error" (try_again "Password field is empty"));
    (a <- get answer_redo_var ;;
     if String.eqb a "Yes"
     then s <- get answer_password_var ;; ret (negb (bool_str s))
     else ret false,
     showerror "Error" (try_again "Answer Password field is empty"));
    (s <- get IP_Address1_var ;;
     ip <- lift (ipaddress.ip_address s) ;;
     ret (negb (ipaddress.bool_address ip)),
     showerror "Error"
               (try_again "Core Switch 1 field is empty or IP is invalid"));
    (s <- get IP_Address2_var ;;
     if bool_str s
     then s' <- get IP_Address2_var ;;
          ip <- lift (ipaddress.ip_address s') ;;
          ret (negb (ipaddress.bool_address ip))
     else ret false,
     showerror "Error" (try_again "Core Switch 1 IP is invalid"));
    (s <- get FolderPath_var ;; ret (negb (bool_str s)),
     showerror "Error" (try_again "Results file location field is empty")) ].

(** The [else] of lines 136-153. *)
Definition validation_else : action unit :=
  config Site_Name_entry disabled ;;
  config Username_entry disabled ;;
  config password_entry disabled ;;
  config answer_redo disabled ;;
  config answer_password_entry disabled ;;
  config IP_Address1_entry disabled ;;
  config IP_Address2_entry disabled ;;
  config FolderPath_entry disabled ;;
  config browse_button disabled ;;
  config JumpServer disabled ;;
  config Debugging disabled ;;
  config submit_button disabled ;;
  showinfo "Information"
           ("Your script is running in the background" ++ nl ++
            "and may take a few minutes" ++ nl ++
            "You will be notified upon completion!") ;;
  master_destroy.

(** The [except ValueError] of lines 155-157. *)
Definition validation_except : action unit :=
  showerror "Error"
            (try_again "One of the IP Addresses you provided is invalid").

(** The [try] statement with its chain entered at the branch of index
    [n]; [validation] enters it at the first one. *)
Definition validation_from (n : nat) : action unit :=
  try_except_ValueError
    (if_elif (skipn n validation_branches) validation_else)
    validation_except.

Definition validation : action unit := validation_from 0.

(** ** [get_folder_path], [quit_script] and the event loop *)

(** [filedialog.askdirectory()]: what the user did in the dialog decides
    the string it returns, the chosen directory or [''] after Cancel. *)
Definition askdirectory (chosen : option string) : action string :=
  ret match chosen with
      | Some path => path
      | None => ""
      end.

Definition get_folder_path (chosen : option string) : action unit :=
  folder_selected <- askdirectory chosen ;;
  FolderPath_var_set folder_selected.

(** [sys.exit()] *)
Definition quit_script : action unit := raise SystemExit.

(** The state [__init__] leaves: the comboboxes are read-only and show
    their first value, the folder entry is disabled, every other variable
    is empty. *)
Definition __init__ : MyGUIClass :=
  {| vars := {| SiteName_var := "";
                Username_var := "";
                password_var := "";
                answer_redo_var := "Yes";
                answer_password_var := "";
                IP_Address1_var := "";
                IP_Address2_var := "";
                FolderPath_var := "";
                JumpServer_var := "MMFTH1V-MGMTS02";
                Debugging_var := "Off" |};
     wstate := fun w =>
                 match w with
                 | answer_redo | JumpServer | Debugging => readonly
                 | FolderPath_entry => disabled
                 | _ => normal
                 end;
     master_exists := true;
     shown := [] |}.

(** The variables after the user has put [text] into the widget [w]: each
    [Entry] and [Combobox] writes the [textvariable] it was created with,
    a button has none. *)
Definition textvariable_set (w : widget) (text : string) (v : StringVars)
  : StringVars :=
  let upd := fun w' old => if widget_eqb w w' then text else old in
  {| SiteName_var := upd Site_Name_entry (SiteName_var v);
     Username_var := upd Username_entry (Username_var v);
     password_var := upd password_entry (password_var v);
     answer_redo_var := upd answer_redo (answer_redo_var v);
     answer_password_var := upd answer_password_entry (answer_password_var v);
     IP_Address1_var := upd IP_Address1_entry (IP_Address1_var v);
     IP_Address2_var := upd IP_Address2_entry (IP_Address2_var v);
     FolderPath_var := upd FolderPath_entry (FolderPath_var v);
     JumpServer_var := upd JumpServer (JumpServer_var v);
     Debugging_var := upd Debugging (Debugging_var v) |}.

(** What the user can do to the window: type into an entry or choose in a
    combobox, press one of the three buttons (for [browse_button], with
    what they then do in the directory dialog), or close the window. *)
Inductive event : Type :=
| edit (w : widget) (text : string)
| press_submit
| press_browse (chosen : option string)
| press_cancel
| close_window.

(** Tk lets a widget take input, and runs the [command] of a button, only
    while the widget is not disabled, and delivers nothing once the root
    window is destroyed. *)
Definition dispatch (ev : event) : action unit :=
  fun g =>
    if negb (master_exists g) then (Val tt, g)
    else
      match ev with
      | edit w text =>
          match wstate g w with
          | disabled => (Val tt, g)
          | _ => (Val tt,
                  {| vars := textvariable_set w text (vars g);
                     wstate := wstate g;
                     master_exists := master_exists g;
                     shown := shown g |})
          end
      | press_submit =>
          match wstate g submit_button with
          | disabled => (Val tt, g)
          | _ => validation g
          end
      | press_browse chosen =>
          match wstate g browse_button with
          | disabled => (Val tt, g)
          | _ => get_folder_path chosen g
          end
      | press_cancel =>
          match wstate g cancel_button with
          | disabled => (Val tt, g)
          | _ => quit_script g
          end
      | close_window => quit_script g
      end.

(** [root.mainloop()] on the events the user produces. *)
Fixpoint mainloop (evs : list event) : action unit :=
  match evs with
  | [] => ret tt
  | ev :: evs' => dispatch ev ;; mainloop evs'
  end.

(** ** The rules of the specification

    The seven rules as the specification words them, in its order, to be
    compared with what the chain of [validation] does. *)
Inductive rule : Type :=
| siteName | username | password | answerPassword
| coreSwitch1 | coreSwitch2 | resultsFolder.

Definition rules_in_order : list rule :=
  [siteName; username; password; answerPassword;
   coreSwitch1; coreSwitch2; resultsFolder].

(** "is a syntactically valid IPv4 or IPv6 literal" *)
Definition valid_ip (s : string) : bool :=
  match ipaddress.ip_address s with
  | Val _ => true
  | Exc _ => false
  end.

Definition passes (v : StringVars) (r : rule) : bool :=
  match r with
  | siteName => bool_str (SiteName_var v)
  | username => bool_str (Username_var v)
  | password => bool_str (password_var v)
  | answerPassword =>
      if String.eqb (answer_redo_var v) "Yes"
      then bool_str (answer_password_var v) else true
  | coreSwitch1 => valid_ip (IP_Address1_var v)
  | coreSwitch2 =>
      if bool_str (IP_Address2_var v)
      then valid_ip (IP_Address2_var v) else true
  | resultsFolder => bool_str (FolderPath_var v)
  end.

Definition first_failing (v : StringVars) : option rule :=
  find (fun r => negb (passes v r)) rules_in_order.

(** The message box [validation] answers with when the given rule is the
    first that fails: the body of the rule's own branch for the five
    emptiness rules, the [except] handler's for the two address rules. *)
Definition reported (r : rule) : messagebox :=
  match r with
  | siteName => ShowError "Error" (try_again "Site Name field is empty")
  | username => ShowError "Error" (try_again "Username field is empty")
  | password => ShowError "Error" (try_again "Password field is empty")
  | answerPassword =>
      ShowError "Error" (try_again "Answer Password field is empty")
  | coreSwitch1 | coreSwitch2 =>
      ShowError "Error"
                (try_again "One of the IP Addresses you provided is invalid")
  | resultsFolder =>
      ShowError "Error" (try_again "Results file location field is empty")
  end.

(** The two states of the controller: the form is being edited until
    [validation] destroys the window. *)
Inductive controller : Type := Editing | Submitted.

Definition controller_state (g : MyGUIClass) : controller :=
  if master_exists g then Editing else Submitted.

(** The message boxes that running [m] from [g] adds. *)
Definition boxes_of (m : action unit) (g : MyGUIClass) : list messagebox :=
  skipn (List.length (shown g)) (shown (snd (m g))).

(** Whether the text of a message box contains [field]. *)
Definition names (field : string) (d : messagebox) : bool :=
  match d with
  | ShowError _ message | ShowInfo _ message =>
      match String.index 0 field message with
      | Some _ => true
      | None => false
      end
  end.

(** The state after the [else] branch has run. *)
Definition submitted (g : MyGUIClass) : MyGUIClass := snd (validation_else g).

(** The test of the branch of index [n] in the chain. *)
Definition test_of (n : nat) : action bool :=
  fst (nth n validation_branches (ret false, ret tt)).

(** The body of the branch of index [n] in the chain: the error dialog
    the source gives the rule of that branch. *)
Definition body_of (n : nat) : action unit :=
  snd (nth n validation_branches (ret false, ret tt)).

(** The two rules that parse an address. *)
Definition address_rule (r : rule) : bool :=
  match r with
  | coreSwitch1 | coreSwitch2 => true
  | _ => false
  end.

(** The three message boxes that the address rules are about: the two of
    the branches and the one of the handler. *)
Definition core_switch_1_box : messagebox :=
  ShowError "Error" (try_again "Core Switch 1 field is empty or IP is invalid").

Definition core_switch_2_box : messagebox :=
  ShowError "Error" (try_again "Core Switch 1 IP is invalid").

Definition any_address_box : messagebox :=
  ShowError "Error"
            (try_again "One of the IP Addresses you provided is invalid").

Definition information_box : messagebox :=
  ShowInfo "Information"
           ("Your script is running in the background" ++ nl ++
            "and may take a few minutes" ++ nl ++
            "You will be notified upon completion!").

(** ** Filled-in forms

    The state the window is in once the user has typed the given texts,
    chosen in the combobox, and picked (or not) a results folder. *)
Definition fill (site user pass redo answer ip1 ip2 : string)
           (folder : option string) : list event :=
  [edit Site_Name_entry site; edit Username_entry user;
   edit password_entry pass; edit answer_redo redo;
   edit answer_password_entry answer;
   edit IP_Address1_entry ip1; edit IP_Address2_entry ip2;
   press_browse folder].

Definition after (evs : list event) : MyGUIClass :=
  snd (mainloop evs __init__).

(** The scenarios A to D of the specification. *)
Definition scenario_A : MyGUIClass :=
  after (fill "HQ" "admin" "x" "No" "" "10.0.0.1" "" (Some "/tmp/out")).

Definition scenario_B : MyGUIClass :=
  after (fill "HQ" "admin" "x" "No" "" "999.999.999.999" ""
              (Some "/tmp/out")).

Definition scenario_C : MyGUIClass :=
  after (fill "HQ" "admin" "x" "No" "" "::1" "" (Some "/tmp/out")).

Definition scenario_D : MyGUIClass :=
  after (fill "" "admin" "x" "No" "" "10.0.0.1" "" (Some "/tmp/out")).

(** Scenario B with the malformed address in the optional field. *)
Definition scenario_B2 : MyGUIClass :=
  after (fill "HQ" "admin" "x" "No" "" "10.0.0.1" "999.999.999.999"
              (Some "/tmp/out")).

(** Scenario A with the retry left on Yes and no answer password. *)
Definition scenario_A_yes : MyGUIClass :=
  after (fill "HQ" "admin" "x" "Yes" "" "10.0.0.1" "" (Some "/tmp/out")).

(** A results folder has been picked, nothing else is filled in. *)
Definition folder_picked : MyGUIClass :=
  after [press_browse (Some "/tmp/out")].

(** ** The runs of the event loop

    What the window can be brought to by the user, for the properties of
    [__init__], [quit_script], [get_folder_path] and the wiring of the
    buttons. *)

Definition is_error (d : messagebox) : bool :=
  match d with
  | ShowError _ _ => true
  | ShowInfo _ _ => false
  end.

(** The event ends the program: Cancel, or closing the window, which
    [__init__] binds to [quit_script] too. *)
Definition is_quit (ev : event) : bool :=
  match ev with
  | press_cancel | close_window => true
  | _ => false
  end.

Definition is_browse (ev : event) : bool :=
  match ev with
  | press_browse _ => true
  | _ => false
  end.

(** The user presses Browse and chooses a directory. *)
Definition picks_folder (ev : event) : bool :=
  match ev with
  | press_browse (Some path) => bool_str path
  | _ => false
  end.

(** The two shapes of a state the program can be in between events: the
    window is open with every widget as [__init__] made it and only error
    boxes shown so far, or it is destroyed with every widget but Cancel
    disabled and the information box as the last box shown. *)
Definition editing (g : MyGUIClass) : Prop :=
  master_exists g = true
  /\ (forall w, wstate g w = wstate __init__ w)
  /\ forallb is_error (shown g) = true.

Definition handed_over (g : MyGUIClass) : Prop :=
  master_exists g = false
  /\ (forall w, w <> cancel_button -> wstate g w = disabled)
  /\ exists errors,
      forallb is_error errors = true
      /\ shown g = (errors ++ [information_box])%list.

(** Scenario A with Core Switch 1 left empty, and with a network in prefix
    notation in it. *)
Definition scenario_A_no_switch : MyGUIClass :=
  after (fill "HQ" "admin" "x" "No" "" "" "" (Some "/tmp/out")).

Definition scenario_A_prefix : MyGUIClass :=
  after (fill "HQ" "admin" "x" "No" "" "10.0.0.0/24" "" (Some "/tmp/out")).

(** ** What [ip_address] can raise *)

Lemma for_range_raises {S} (body : nat -> S -> result S) (e : exn) :
  forall idx s, for_range idx body s = Exc e ->
                exists i s', body i s' = Exc e.
Proof.
  induction idx as [|i idx IH]; intros s H; simpl in H.
  - discriminate.
  - destruct (body i s) as [s1|e1] eqn:Hb; simpl in H.
    + eauto.
    + inversion H; subst. eauto.
Qed.

Ltac break_ifs H :=
  repeat match type of H with
         | context [if ?b then _ else _] => destruct b; simpl in H
         end.

Lemma _parse_octet_raises s e :
  ipaddress._BaseV4._parse_octet s = Exc e -> e = ValueError.
Proof.
  unfold ipaddress._BaseV4._parse_octet. intros H.
  break_ifs H; congruence.
Qed.

Lemma IPv4Address__init__raises s e :
  ipaddress.IPv4Address__init__ s = Exc e -> e = AddressValueError.
Proof.
  unfold ipaddress.IPv4Address__init__, ipaddress._BaseV4._ip_int_from_string.
  intros H.
  destruct (contains "/" s); [congruence|].
  destruct (negb (bool_str s)); [congruence|].
  destruct (negb _); [congruence|].
  destruct (ipaddress._BaseV4.int_from_bytes_big _) as [n|e1] eqn:Hb;
    [discriminate|].
  apply for_range_raises in Hb. destruct Hb as (i & acc & Hb).
  destruct (ipaddress._BaseV4._parse_octet _) as [b|e2] eqn:Ho;
    simpl in Hb; [discriminate|].
  apply _parse_octet_raises in Ho. inversion Hb; subst. simpl in H.
  congruence.
Qed.

Lemma _parse_hextet_raises s e :
  ipaddress._BaseV6._parse_hextet s = Exc e -> e = ValueError.
Proof.
  unfold ipaddress._BaseV6._parse_hextet, int16. intros H.
  break_ifs H; congruence.
Qed.

Lemma _split_scope_id_raises s e :
  ipaddress._BaseV6._split_scope_id s = Exc e -> e = AddressValueError.
Proof.
  unfold ipaddress._BaseV6._split_scope_id. intros H.
  destruct (partition "%" s) as [[addr sep] scope_id].
  break_ifs H; congruence.
Qed.

Lemma find_skip_index_raises parts e :
  ipaddress._BaseV6.find_skip_index parts = Exc e -> e = AddressValueError.
Proof.
  unfold ipaddress._BaseV6.find_skip_index. intros H.
  apply for_range_raises in H. destruct H as (i & skip_index & H).
  destruct (negb _); [destruct skip_index|]; congruence.
Qed.

Lemma parse_hextets_raises parts hi lo skipped e :
  ipaddress._BaseV6.parse_hextets parts hi lo skipped = Exc e ->
  e = ValueError.
Proof.
  unfold ipaddress._BaseV6.parse_hextets. intros H.
  assert (Hstep : forall i acc,
             rbind (ipaddress._BaseV6._parse_hextet (nth i parts ""))
                   (fun h => Val (Z.lor (Z.shiftl acc 16) h)) = Exc e ->
             e = ValueError).
  { intros i acc Hs.
    destruct (ipaddress._BaseV6._parse_hextet _) as [h|e1] eqn:Hh;
      simpl in Hs; [discriminate|].
    apply _parse_hextet_raises in Hh. congruence. }
  destruct (for_range (seq 0 hi) _ 0%Z) as [ip_int|e1] eqn:Hhi; simpl in H.
  - apply for_range_raises in H. destruct H as (i & acc & H). eauto.
  - inversion H; subst.
    apply for_range_raises in Hhi. destruct Hhi as (i & acc & Hhi). eauto.
Qed.

Lemma _BaseV6_ip_int_from_string_raises s e :
  ipaddress._BaseV6._ip_int_from_string s = Exc e -> e = AddressValueError.
Proof.
  unfold ipaddress._BaseV6._ip_int_from_string. intros H.
  destruct (negb (bool_str s)); [congruence|].
  destruct (_ <? _)%nat; [congruence|].
  match type of H with
  | rbind ?r _ = _ => destruct r as [parts|e1] eqn:Hparts
  end; simpl in H.
  2:{ inversion H; subst.
      destruct (contains "." _); [|discriminate].
      destruct (ipaddress.IPv4Address__init__ _) as [n|e2] eqn:H4;
        [discriminate|].
      apply IPv4Address__init__raises in H4. subst. simpl in Hparts.
      congruence. }
  clear Hparts.
  destruct (_ <? _)%nat; [congruence|].
  destruct (ipaddress._BaseV6.find_skip_index parts) as [skip|e1] eqn:Hskip;
    simpl in H.
  2:{ apply find_skip_index_raises in Hskip. congruence. }
  match type of H with
  | rbind ?r _ = _ => destruct r as [[[hi lo] skipped]|e1] eqn:Hsplit
  end; simpl in H.
  - destruct (ipaddress._BaseV6.parse_hextets _ _ _ _) as [n|e1] eqn:Hp;
      [discriminate|].
    apply parse_hextets_raises in Hp. subst. simpl in H. congruence.
  - inversion H; subst. clear H Hskip.
    destruct skip as [skip_index|].
    + repeat match type of Hsplit with
             | rbind ?r _ = _ =>
                 let E := fresh "E" in
                 destruct r eqn:E; simpl in Hsplit;
                 [|break_ifs E; congruence]
             end.
      break_ifs Hsplit; congruence.
    + break_ifs Hsplit; congruence.
Qed.

Lemma IPv6Address__init__raises s e :
  ipaddress.IPv6Address__init__ s = Exc e -> e = AddressValueError.
Proof.
  unfold ipaddress.IPv6Address__init__. intros H.
  destruct (contains "/" s); [congruence|].
  destruct (ipaddress._BaseV6._split_scope_id s) as [[addr scope]|e1] eqn:Hs;
    simpl in H.
  - destruct (ipaddress._BaseV6._ip_int_from_string addr) as [ip|e2] eqn:Hi;
      simpl in H; [discriminate|].
    apply _BaseV6_ip_int_from_string_raises in Hi. congruence.
  - apply _split_scope_id_raises in Hs. congruence.
Qed.

(** [ip_address] raises nothing but [ValueError] itself. *)
Lemma ip_address_raises s e :
  ipaddress.ip_address s = Exc e -> e = ValueError.
Proof.
  unfold ipaddress.ip_address. intros H.
  destruct (ipaddress.IPv4Address__init__ s) as [ip|e4] eqn:H4;
    [discriminate|].
  apply IPv4Address__init__raises in H4. subst. simpl in H.
  destruct (ipaddress.IPv6Address__init__ s) as [[ip scope]|e6] eqn:H6;
    [discriminate|].
  apply IPv6Address__init__raises in H6. subst. simpl in H. congruence.
Qed.

Arguments ipaddress.ip_address : simpl never.

(** ** The chain of [validation] against the rules *)

Lemma skipn_nth_error {A} (l : list A) :
  forall n x, nth_error l n = Some x -> skipn n l = x :: skipn (S n) l.
Proof.
  induction l as [|a l IH]; intros [|n] x H; simpl in *; try discriminate.
  - congruence.
  - apply IH in H. exact H.
Qed.

(** A branch whose test is false hands over to the next one. *)
Lemma validation_from_next n test body g :
  nth_error validation_branches n = Some (test, body) ->
  test g = (Val false, g) ->
  validation_from n g = validation_from (S n) g.
Proof.
  intros Hn Ht. unfold validation_from, try_except_ValueError.
  rewrite (skipn_nth_error _ _ Hn).
  cbn [if_elif]. unfold bind at 1. rewrite Ht. reflexivity.
Qed.

Lemma validation_else_run g : validation_else g = (Val tt, submitted g).
Proof. destruct g as [v ws me sh]. vm_compute. reflexivity. Qed.

Ltac step := cbn -[validation_else validation_except try_again submitted].

(** What the body of the [try] does: it raises exactly when the first
    rule that fails is one of the two address rules, and then it has
    changed nothing. *)
Lemma validation_body_run g :
  if_elif validation_branches validation_else g =
  match first_failing (vars g) with
  | Some coreSwitch1 | Some coreSwitch2 => (Exc ValueError, g)
  | Some r => (Val tt, show (reported r) g)
  | None => (Val tt, submitted g)
  end.
Proof.
  destruct g as [[sn un pw ar ap ip1 ip2 fp js dbg] ws me sh].
  unfold first_failing, valid_ip. step.
  unfold bind, get, lift, ret, Site_Name_entry_get, valid_ip. step.
  destruct sn; [reflexivity|].
  destruct un; [reflexivity|].
  destruct pw; [reflexivity|]. step.
  destruct (ar =? "Yes"); [destruct ap; [reflexivity|]|]; step.
  all: destruct (ipaddress.ip_address ip1) as [a1'|e1] eqn:E1;
    [|apply ip_address_raises in E1; subst; reflexivity]; step.
  all: destruct (bool_str ip2); step;
    [destruct (ipaddress.ip_address ip2) as [a2'|e2] eqn:E2;
     [|apply ip_address_raises in E2; subst; reflexivity]; step|].
  all: destruct (bool_str fp); step;
    [rewrite validation_else_run|]; reflexivity.
Qed.

(** [validation] returns normally, and what it leaves is decided by the
    first rule that fails. *)
Lemma validation_run g :
  validation g =
  (Val tt, match first_failing (vars g) with
           | Some r => show (reported r) g
           | None => submitted g
           end).
Proof.
  unfold validation, validation_from, try_except_ValueError.
  change (skipn 0 validation_branches) with validation_branches.
  rewrite validation_body_run.
  destruct (first_failing (vars g)) as [[]|]; reflexivity.
Qed.

(** ** The state after a successful submission *)

Lemma submitted_vars g : vars (submitted g) = vars g.
Proof. destruct g as [v ws me sh]. vm_compute. reflexivity. Qed.

Lemma submitted_wstate g w :
  wstate (submitted g) w =
  if widget_eqb w cancel_button then wstate g cancel_button else disabled.
Proof. destruct g as [v ws me sh]; destruct w; vm_compute; reflexivity. Qed.

Lemma submitted_master_exists g : master_exists (submitted g) = false.
Proof. destruct g as [v ws me sh]. vm_compute. reflexivity. Qed.

Lemma submitted_shown g : shown (submitted g) = (shown g ++ [information_box])%list.
Proof.
  destruct g as [v ws me sh].
  change (shown (submitted (Build_MyGUIClass v ws me sh)))
    with (sh ++ [information_box])%list.
  reflexivity.
Qed.

(** Once the root window is destroyed no event changes anything. *)
Lemma mainloop_after_destroy evs :
  forall g, master_exists g = false -> mainloop evs g = (Val tt, g).
Proof.
  induction evs as [|ev evs IH]; intros g H; [reflexivity|].
  cbn [mainloop]. unfold bind, dispatch. rewrite H. cbn [negb].
  apply IH, H.
Qed.

(** ** The message boxes a call adds *)

Lemma skipn_length_app {A} (l l' : list A) :
  skipn (List.length l) (l ++ l')%list = l'.
Proof. induction l as [|a l IH]; [reflexivity | exact IH]. Qed.

Lemma validation_boxes g :
  boxes_of validation g =
  [match first_failing (vars g) with
   | Some r => reported r
   | None => information_box
   end].
Proof.
  unfold boxes_of. rewrite validation_run. cbn [snd].
  destruct (first_failing (vars g)) as [r|].
  - cbn [show shown]. apply skipn_length_app.
  - rewrite submitted_shown. apply skipn_length_app.
Qed.

(** ** [first_failing] and the order of the rules *)

Lemma first_failing_split v before r after :
  rules_in_order = (before ++ r :: after)%list ->
  forallb (passes v) before = true ->
  passes v r = false ->
  first_failing v = Some r.
Proof.
  intros Hsplit Hb Hr. unfold first_failing. rewrite Hsplit. clear Hsplit.
  induction before as [|y before IH]; cbn.
  - rewrite Hr. reflexivity.
  - cbn in Hb. apply andb_prop in Hb. destruct Hb as [Hy Hb].
    rewrite Hy. cbn. apply IH, Hb.
Qed.

Lemma first_failing_none v :
  first_failing v = None <-> forallb (passes v) rules_in_order = true.
Proof.
  unfold first_failing, rules_in_order. cbn [find forallb].
  repeat match goal with
         | |- context [passes v ?r] => destruct (passes v r); cbn [negb andb]
         end; split; (reflexivity || discriminate).
Qed.

(** ** The scenarios of the specification, run *)

Example scenario_A_submits :
  fst (validation scenario_A) = Val tt
  /\ controller_state (snd (validation scenario_A)) = Submitted
  /\ boxes_of validation scenario_A = [information_box].
Proof. vm_compute. repeat split. Qed.

Example scenario_C_submits :
  valid_ip "::1" = true
  /\ controller_state (snd (validation scenario_C)) = Submitted
  /\ boxes_of validation scenario_C = [information_box].
Proof. vm_compute. repeat split. Qed.

(** ** The claims *)

(** ** The branches of the chain, one per rule *)

Lemma branch_of_rule n r :
  nth_error rules_in_order n = Some r ->
  nth_error validation_branches n = Some (test_of n, body_of n).
Proof.
  intros H. do 7 (destruct n as [|n]; [reflexivity|]).
  destruct n; discriminate H.
Qed.

(** What the test of a rule's branch comes to: false when the rule
    passes, true when an emptiness rule fails, a [ValueError] when an
    address rule fails; it changes nothing. *)
Lemma test_of_run g n r :
  nth_error rules_in_order n = Some r ->
  test_of n g =
  (if passes (vars g) r then Val false
   else if address_rule r then Exc ValueError else Val true, g).
Proof.
  intros H.
  do 7 (destruct n as [|n];
        [injection H as <-;
         unfold test_of; cbn [nth validation_branches fst];
         cbv [bind get lift ret Site_Name_entry_get];
         cbn [passes address_rule]; unfold valid_ip;
         repeat match goal with
                | |- context [String.eqb ?a ?b] =>
                    destruct (String.eqb a b); cbv beta iota
                | |- context [bool_str ?s] =>
                    destruct (bool_str s); cbn [negb]; cbv beta iota
                | |- context [ipaddress.ip_address ?s] =>
                    let E := fresh "E" in
                    destruct (ipaddress.ip_address s) eqn:E;
                    [|apply ip_address_raises in E; subst]; cbv beta iota
                end;
         reflexivity|]).
  destruct n; discriminate H.
Qed.

Lemma firstn_snoc {A} (l : list A) :
  forall n x, nth_error l n = Some x ->
              firstn (S n) l = (firstn n l ++ [x])%list.
Proof.
  induction l as [|a l IH]; intros [|n] x H; cbn in *; try discriminate.
  - congruence.
  - f_equal. apply IH, H.
Qed.

(** The chain gets to the branch of a rule when the rules before it
    pass. *)
Lemma validation_reaches g n :
  n <= List.length rules_in_order ->
  forallb (passes (vars g)) (firstn n rules_in_order) = true ->
  validation g = validation_from n g.
Proof.
  induction n as [|n IH]; intros Hn Hb; [reflexivity|].
  destruct (nth_error rules_in_order n) as [r|] eqn:Hr.
  2:{ apply nth_error_None in Hr.
      destruct (Nat.nle_succ_diag_l _ (Nat.le_trans _ _ _ Hn Hr)). }
  rewrite (firstn_snoc _ _ Hr), forallb_app in Hb.
  apply andb_prop in Hb. destruct Hb as [Hb Hp].
  cbn [forallb] in Hp. rewrite andb_true_r in Hp.
  rewrite IH; [|apply Nat.lt_le_incl, Hn|exact Hb].
  apply (validation_from_next _ (branch_of_rule _ Hr)).
  rewrite (test_of_run g _ Hr), Hp. reflexivity.
Qed.

Lemma rules_split n r :
  nth_error rules_in_order n = Some r ->
  rules_in_order
  = (firstn n rules_in_order ++ r :: skipn (S n) rules_in_order)%list.
Proof.
  intros H. rewrite <- (firstn_skipn n rules_in_order) at 1.
  rewrite (skipn_nth_error _ _ H). reflexivity.
Qed.

(** C1: [validation] does test siteName, username, password,
    answerPassword (only when the combobox says Yes), coreSwitch1,
    coreSwitch2 (only when not empty) and resultsFolder in this order and
    stops at the first rule that fails: when the rules before [r] pass the
    chain gets to the branch of [r], whose test is false when [r] passes
    and ends the chain when [r] fails.  A failing emptiness rule makes
    [validation] do what the body of its own branch does, show that
    rule's error box; an empty Site Name gives the Site Name box whatever
    the other fields hold.  A failing address rule does not: its test
    raises, and [validation] does what the [except] handler does, whose
    box is not the one of the rule's branch.  So for scenario B, where
    coreSwitch1 is the first rule that fails, the error reported is not
    the Core Switch 1 error of lines 127-129 but the handler's, which
    names no field. *)
Theorem first_failing_rule_is_reported_except_for_addresses :
  (forall g n r,
      nth_error rules_in_order n = Some r ->
      forallb (passes (vars g)) (firstn n rules_in_order) = true ->
      validation g = validation_from n g
      /\ (passes (vars g) r = true -> test_of n g = (Val false, g))
      /\ (passes (vars g) r = false ->
          if address_rule r
          then test_of n g = (Exc ValueError, g)
               /\ validation g = validation_except g
               /\ validation g <> body_of n g
          else test_of n g = (Val true, g)
               /\ validation g = body_of n g))
  /\ (forall g,
         SiteName_var (vars g) = "" ->
         validation g =
         (Val tt,
          show (ShowError "Error" (try_again "Site Name field is empty")) g))
  /\ (nth_error rules_in_order 4 = Some coreSwitch1
      /\ forallb (passes (vars scenario_B)) (firstn 4 rules_in_order) = true
      /\ passes (vars scenario_B) coreSwitch1 = false
      /\ boxes_of (body_of 4) scenario_B = [core_switch_1_box]
      /\ names "Core Switch 1" core_switch_1_box = true
      /\ boxes_of validation scenario_B = [any_address_box]
      /\ names "Core Switch 1" any_address_box = false).
Proof.
  split; [|split].
  - intros g n r Hr Hb.
    assert (Hn : n <= List.length rules_in_order).
    { apply Nat.lt_le_incl, nth_error_Some. rewrite Hr. discriminate. }
    split; [exact (validation_reaches g Hn Hb)|].
    split.
    + intros Hp. rewrite (test_of_run g _ Hr), Hp. reflexivity.
    + intros Hp. rewrite (test_of_run g _ Hr), Hp.
      rewrite validation_run.
      rewrite (first_failing_split _ _ _ _ (rules_split _ Hr) Hb Hp).
      do 7 (destruct n as [|n];
            [injection Hr as <-; cbn [address_rule];
             repeat split; try reflexivity;
             intros H; injection H as H; apply app_inv_head in H;
             vm_compute in H; discriminate H|]).
      destruct n; discriminate Hr.
  - intros g Hsite. rewrite validation_run.
    unfold first_failing. cbn [rules_in_order find passes].
    rewrite Hsite. reflexivity.
  - vm_compute. repeat split.
Qed.

Lemma first_failing_rule_is_reported_except_for_addresses_witness :
  (forallb (passes (vars scenario_B)) (firstn 4 rules_in_order) = true
   /\ passes (vars scenario_B) coreSwitch1 = false
   /\ validation scenario_B = validation_from 4 scenario_B
   /\ test_of 4 scenario_B = (Exc ValueError, scenario_B)
   /\ validation scenario_B = validation_except scenario_B
   /\ validation scenario_B <> body_of 4 scenario_B)
  /\ (SiteName_var (vars scenario_D) = ""
      /\ validation scenario_D =
         (Val tt,
          show (ShowError "Error" (try_again "Site Name field is empty"))
               scenario_D)).
Proof.
  assert (HB : forallb (passes (vars scenario_B)) (firstn 4 rules_in_order)
               = true) by (vm_compute; reflexivity).
  assert (HfB : passes (vars scenario_B) coreSwitch1 = false)
    by (vm_compute; reflexivity).
  destruct (proj1 first_failing_rule_is_reported_except_for_addresses
                  scenario_B 4 coreSwitch1 eq_refl HB) as (H1 & _ & H3).
  destruct (H3 HfB) as (H4 & H5 & H6).
  split.
  - repeat split; assumption.
  - split; [reflexivity|].
    apply (proj1 (proj2 first_failing_rule_is_reported_except_for_addresses)).
    reflexivity.
Defined.

Lemma first_failing_fails v r :
  first_failing v = Some r -> passes v r = false.
Proof.
  unfold first_failing. intros H. apply find_some in H.
  destruct H as [_ H]. apply negb_true_iff in H. exact H.
Qed.

(** A failing address rule, after passing rules, ends in the handler. *)
Lemma invalid_core_switch_1 g :
  forallb (passes (vars g)) [siteName; username; password; answerPassword]
  = true ->
  valid_ip (IP_Address1_var (vars g)) = false ->
  validation g = (Val tt, show any_address_box g).
Proof.
  intros Hb Hip. rewrite validation_run.
  rewrite (@first_failing_split _ [siteName; username; password;
                                   answerPassword]
                                coreSwitch1 [coreSwitch2; resultsFolder]
                                eq_refl Hb Hip).
  reflexivity.
Qed.

Lemma invalid_core_switch_2 g :
  forallb (passes (vars g))
          [siteName; username; password; answerPassword; coreSwitch1]
  = true ->
  bool_str (IP_Address2_var (vars g)) = true ->
  valid_ip (IP_Address2_var (vars g)) = false ->
  validation g = (Val tt, show any_address_box g).
Proof.
  intros Hb Hne Hip. rewrite validation_run.
  rewrite (@first_failing_split _ [siteName; username; password;
                                   answerPassword; coreSwitch1]
                                coreSwitch2 [resultsFolder] eq_refl Hb).
  - reflexivity.
  - cbn [passes]. rewrite Hne. exact Hip.
Qed.

(** C2: for scenario B, where Core Switch 1 holds the malformed address
    999.999.999.999 and every earlier field is filled in, [validation]
    shows the message box of the [except] handler, whose text names no
    field, and not the Core Switch 1 box of the branch of line 127. *)
Theorem invalid_core_switch_1_gets_the_handler_box :
  valid_ip "999.999.999.999" = false
  /\ valid_ip "" = false
  /\ validation scenario_B = (Val tt, show any_address_box scenario_B)
  /\ boxes_of validation scenario_B = [any_address_box]
  /\ names "Core Switch 1" any_address_box = false
  /\ names "Core Switch 1" core_switch_1_box = true.
Proof. vm_compute. repeat split. Qed.

(** C3: with a valid Core Switch 1 and the malformed address
    999.999.999.999 in the optional second field, [validation] shows the
    message box of the [except] handler, which does not name the second
    switch; the box of the branch of line 130 would not name it either,
    its text says Core Switch 1. *)
Theorem invalid_core_switch_2_gets_the_handler_box :
  valid_ip "10.0.0.1" = true
  /\ valid_ip "999.999.999.999" = false
  /\ validation scenario_B2 = (Val tt, show any_address_box scenario_B2)
  /\ boxes_of validation scenario_B2 = [any_address_box]
  /\ names "Core Switch 2" any_address_box = false
  /\ names "Core Switch 2" core_switch_2_box = false.
Proof. vm_compute. repeat split. Qed.

(** ** Walking down the chain *)

Ltac next_branch H :=
  erewrite validation_from_next;
  [ | reflexivity
    | cbv [bind get lift ret Site_Name_entry_get]; rewrite ?H; reflexivity ].

Lemma reported_answerPassword r :
  reported r = reported answerPassword -> r = answerPassword.
Proof. destruct r; intros H; (reflexivity || (vm_compute in H; discriminate)). Qed.

(** C4: when the combobox says No, the test of the Answer Password branch
    is false, so that a form with Site Name, Username and Password filled
    in and no answer password goes on to the Core Switch 1 test and never
    gets the Answer Password box; when it says Yes, the same form gets the
    Answer Password box. *)
Theorem answer_password_rule (g : MyGUIClass) :
  (answer_redo_var (vars g) = "No" -> test_of 3 g = (Val false, g))
  /\ (bool_str (SiteName_var (vars g)) = true ->
      bool_str (Username_var (vars g)) = true ->
      bool_str (password_var (vars g)) = true ->
      answer_password_var (vars g) = "" ->
      (answer_redo_var (vars g) = "No" ->
       validation g = validation_from 4 g
       /\ ~ In (reported answerPassword) (boxes_of validation g))
      /\ (answer_redo_var (vars g) = "Yes" ->
          validation g =
          (Val tt,
           show (ShowError "Error"
                           (try_again "Answer Password field is empty")) g))).
Proof.
  split.
  - intros Hno. unfold test_of. cbn [nth validation_branches fst].
    cbv [bind get ret]. rewrite Hno. reflexivity.
  - intros Hsite Huser Hpass Hanswer. split.
    + intros Hno. split.
      * unfold validation.
        next_branch Hsite. next_branch Huser. next_branch Hpass.
        next_branch Hno.
        reflexivity.
      * rewrite validation_boxes. intros [H|[]].
        destruct (first_failing (vars g)) as [r|] eqn:Hr.
        -- apply reported_answerPassword in H. subst r.
           apply first_failing_fails in Hr. cbn [passes] in Hr.
           rewrite Hno in Hr. discriminate.
        -- vm_compute in H. discriminate.
    + intros Hyes. rewrite validation_run.
      rewrite (@first_failing_split _ [siteName; username; password]
                                    answerPassword
                                    [coreSwitch1; coreSwitch2; resultsFolder]
                                    eq_refl).
      * reflexivity.
      * cbn [forallb passes]. rewrite Hsite, Huser, Hpass. reflexivity.
      * cbn [passes]. rewrite Hyes, Hanswer. reflexivity.
Qed.

Lemma answer_password_rule_witness :
  test_of 3 scenario_A = (Val false, scenario_A)
  /\ validation scenario_A = validation_from 4 scenario_A
  /\ validation scenario_A_yes =
     (Val tt,
      show (ShowError "Error" (try_again "Answer Password field is empty"))
           scenario_A_yes).
Proof.
  split; [|split].
  - apply (proj1 (answer_password_rule scenario_A)). reflexivity.
  - apply (proj2 (answer_password_rule scenario_A)); reflexivity.
  - apply (proj2 (answer_password_rule scenario_A_yes)); reflexivity.
Defined.

Lemma valid_ip_test s g :
  valid_ip s = true ->
  (let (r, g') := lift (ipaddress.ip_address s) g in
   match r with
   | Val ip => (Val (negb (ipaddress.bool_address ip)), g')
   | Exc e => (Exc e, g')
   end) = (Val false, g).
Proof.
  unfold valid_ip, lift. destruct (ipaddress.ip_address s); [|discriminate].
  reflexivity.
Qed.

(** C5: when Core Switch 2 is empty, the test of its branch is false
    without the address being parsed, the rule is never the one that
    fails, a form that passes the five rules before it goes on to the
    Results Folder test, which alone decides the outcome, and if the
    address box is shown at all it is Core Switch 1 that is malformed. *)
Theorem empty_core_switch_2_is_skipped (g : MyGUIClass) :
  IP_Address2_var (vars g) = "" ->
  test_of 5 g = (Val false, g)
  /\ first_failing (vars g) <> Some coreSwitch2
  /\ (forallb (passes (vars g))
              [siteName; username; password; answerPassword; coreSwitch1]
      = true ->
      validation g = validation_from 6 g
      /\ validation g =
         (Val tt, if bool_str (FolderPath_var (vars g))
                  then submitted g
                  else show (reported resultsFolder) g))
  /\ (In any_address_box (boxes_of validation g) ->
      valid_ip (IP_Address1_var (vars g)) = false).
Proof.
  intros Hempty.
  assert (Htest : test_of 5 g = (Val false, g)).
  { unfold test_of. cbn [nth validation_branches fst].
    cbv [bind get ret]. rewrite Hempty. reflexivity. }
  assert (Hnot : first_failing (vars g) <> Some coreSwitch2).
  { intros H. apply first_failing_fails in H. cbn [passes] in H.
    rewrite Hempty in H. discriminate. }
  split; [exact Htest|]. split; [exact Hnot|]. split.
  - intros Hb. cbn [forallb] in Hb.
    repeat (apply andb_prop in Hb; destruct Hb as [? Hb]).
    cbn [passes] in *. split.
    + unfold validation.
      next_branch H. next_branch H0. next_branch H1.
      erewrite validation_from_next;
        [ | reflexivity
          | cbv [bind get ret];
            destruct (answer_redo_var (vars g) =? "Yes");
            [rewrite H2|]; reflexivity ].
      erewrite validation_from_next;
        [ | reflexivity | cbv [bind get ret]; apply valid_ip_test, H3 ].
      erewrite validation_from_next; [ | reflexivity | exact Htest ].
      reflexivity.
    + rewrite validation_run. unfold first_failing.
      cbn [rules_in_order find passes].
      rewrite H, H0, H1, H2, H3, Hempty. cbn [negb bool_str].
      destruct (bool_str (FolderPath_var (vars g))); reflexivity.
  - rewrite validation_boxes. intros [H|[]].
    destruct (first_failing (vars g)) as [r|] eqn:Hr.
    + destruct r; try (vm_compute in H; discriminate).
      * apply first_failing_fails in Hr. exact Hr.
      * contradiction.
    + vm_compute in H. discriminate.
Qed.

Lemma empty_core_switch_2_is_skipped_witness :
  IP_Address2_var (vars scenario_A) = ""
  /\ test_of 5 scenario_A = (Val false, scenario_A)
  /\ validation scenario_A = validation_from 6 scenario_A.
Proof.
  assert (H : IP_Address2_var (vars scenario_A) = "") by reflexivity.
  split; [exact H|]. split.
  - exact (proj1 (empty_core_switch_2_is_skipped scenario_A H)).
  - refine (proj1 (proj1 (proj2 (proj2
             (empty_core_switch_2_is_skipped scenario_A H))) _)).
    vm_compute. reflexivity.
Defined.

(** C6: when all seven rules pass, [validation] returns normally in the
    [Submitted] state: the variables keep their values, every widget but
    the Cancel button is disabled, the one message box shown is the
    information box, the root window is destroyed, and from then on no
    event of the user changes the state any more. *)
Theorem submit_succeeds (g : MyGUIClass) :
  forallb (passes (vars g)) rules_in_order = true ->
  exists g',
    validation g = (Val tt, g')
    /\ controller_state g' = Submitted
    /\ vars g' = vars g
    /\ (forall w, w <> cancel_button -> wstate g' w = disabled)
    /\ shown g' = (shown g ++ [information_box])%list
    /\ master_exists g' = false
    /\ (forall evs, mainloop evs g' = (Val tt, g')).
Proof.
  intros Hall. exists (submitted g).
  apply first_failing_none in Hall.
  rewrite validation_run, Hall.
  split; [reflexivity|].
  split; [unfold controller_state; rewrite submitted_master_exists;
          reflexivity|].
  split; [apply submitted_vars|].
  split.
  { intros w Hw. rewrite submitted_wstate.
    destruct w; try reflexivity. contradiction Hw. reflexivity. }
  split; [apply submitted_shown|].
  split; [apply submitted_master_exists|].
  intros evs. apply mainloop_after_destroy, submitted_master_exists.
Qed.

Lemma submit_succeeds_witness :
  forallb (passes (vars scenario_A)) rules_in_order = true
  /\ exists g',
      validation scenario_A = (Val tt, g')
      /\ controller_state g' = Submitted
      /\ vars g' = vars scenario_A
      /\ (forall w, w <> cancel_button -> wstate g' w = disabled)
      /\ shown g' = (shown scenario_A ++ [information_box])%list
      /\ master_exists g' = false
      /\ (forall evs, mainloop evs g' = (Val tt, g')).
Proof.
  assert (H : forallb (passes (vars scenario_A)) rules_in_order = true)
    by (vm_compute; reflexivity).
  split; [exact H|]. exact (submit_succeeds scenario_A H).
Defined.

(** C7: when some rule fails, [validation] returns normally after one
    error box and has changed nothing else: the variables, the state of
    every widget and the root window are as before, so that the
    controller stays where it was, in [Editing]. *)
Theorem failed_submit_changes_nothing (g : MyGUIClass) :
  forallb (passes (vars g)) rules_in_order = false ->
  exists title message,
    validation g = (Val tt, show (ShowError title message) g)
    /\ vars (snd (validation g)) = vars g
    /\ (forall w, wstate (snd (validation g)) w = wstate g w)
    /\ master_exists (snd (validation g)) = master_exists g
    /\ controller_state (snd (validation g)) = controller_state g
    /\ boxes_of validation g = [ShowError title message].
Proof.
  intros Hfail.
  destruct (first_failing (vars g)) as [r|] eqn:Hr.
  2:{ apply first_failing_none in Hr. congruence. }
  assert (Hbox : exists title message, reported r = ShowError title message).
  { destruct r; eexists; eexists; reflexivity. }
  destruct Hbox as (title & message & Hbox).
  exists title, message.
  rewrite validation_boxes, validation_run, Hr, Hbox. cbn [snd].
  repeat split.
Qed.

Lemma failed_submit_changes_nothing_witness :
  forallb (passes (vars scenario_B)) rules_in_order = false
  /\ exists title message,
      validation scenario_B = (Val tt, show (ShowError title message) scenario_B)
      /\ vars (snd (validation scenario_B)) = vars scenario_B
      /\ (forall w, wstate (snd (validation scenario_B)) w
                    = wstate scenario_B w)
      /\ master_exists (snd (validation scenario_B))
         = master_exists scenario_B
      /\ controller_state (snd (validation scenario_B))
         = controller_state scenario_B
      /\ boxes_of validation scenario_B = [ShowError title message].
Proof.
  assert (H : forallb (passes (vars scenario_B)) rules_in_order = false)
    by (vm_compute; reflexivity).
  split; [exact H|]. exact (failed_submit_changes_nothing scenario_B H).
Defined.

(** C8 as stated fails: after a folder has been picked, cancelling the
    directory dialog does alter the results folder, it empties it. *)
Lemma cancel_empties_picked_folder :
  FolderPath_var (vars folder_picked) = "/tmp/out"
  /\ FolderPath_var (vars (snd (get_folder_path None folder_picked))) = ""
  /\ FolderPath_var (vars (snd (get_folder_path None folder_picked)))
     <> FolderPath_var (vars folder_picked).
Proof. vm_compute. repeat split. discriminate. Qed.

(** C8, amended: [get_folder_path] stores what the directory dialog
    returns, whatever the results folder held before: the chosen path when
    the user chooses one, the empty string when the user cancels; it
    returns normally and changes nothing else. *)
Theorem get_folder_path_stores_the_dialog_result
        (chosen : option string) (g : MyGUIClass) :
  let g' := snd (get_folder_path chosen g) in
  fst (get_folder_path chosen g) = Val tt
  /\ FolderPath_var (vars g') = match chosen with
                               | Some path => path
                               | None => ""
                               end
  /\ SiteName_var (vars g') = SiteName_var (vars g)
  /\ Username_var (vars g') = Username_var (vars g)
  /\ password_var (vars g') = password_var (vars g)
  /\ answer_redo_var (vars g') = answer_redo_var (vars g)
  /\ answer_password_var (vars g') = answer_password_var (vars g)
  /\ IP_Address1_var (vars g') = IP_Address1_var (vars g)
  /\ IP_Address2_var (vars g') = IP_Address2_var (vars g)
  /\ JumpServer_var (vars g') = JumpServer_var (vars g)
  /\ Debugging_var (vars g') = Debugging_var (vars g)
  /\ wstate g' = wstate g
  /\ master_exists g' = master_exists g
  /\ shown g' = shown g.
Proof. destruct chosen; cbv; repeat split. Qed.

(** C9: [validation] always returns normally; the body of its [try]
    raises nothing but the [ValueError] of [ip_address], before anything
    has been changed, and the handler turns that into the address box. *)
Theorem validation_never_raises (g : MyGUIClass) :
  (exists g', validation g = (Val tt, g'))
  /\ (forall e g1,
         if_elif validation_branches validation_else g = (Exc e, g1) ->
         e = ValueError
         /\ g1 = g
         /\ (valid_ip (IP_Address1_var (vars g)) = false
             \/ valid_ip (IP_Address2_var (vars g)) = false)
         /\ validation g = (Val tt, show any_address_box g)).
Proof.
  split.
  - rewrite validation_run. eexists. reflexivity.
  - intros e g1 Hraise. rewrite validation_run.
    rewrite validation_body_run in Hraise.
    destruct (first_failing (vars g)) as [r|] eqn:Hr;
      [destruct r|]; try discriminate;
      inversion Hraise; subst; apply first_failing_fails in Hr;
      cbn [passes] in Hr; repeat split; auto.
    destruct (bool_str (IP_Address2_var (vars g1))); [auto|discriminate].
Qed.

Lemma validation_never_raises_witness :
  if_elif validation_branches validation_else scenario_B
  = (Exc ValueError, scenario_B)
  /\ validation scenario_B = (Val tt, show any_address_box scenario_B).
Proof.
  assert (H : if_elif validation_branches validation_else scenario_B
              = (Exc ValueError, scenario_B)) by (vm_compute; reflexivity).
  split; [exact H|].
  exact (proj2 (proj2 (proj2
           (proj2 (validation_never_raises scenario_B) _ _ H)))).
Defined.

Lemma branch_4_and_5 :
  nth_error validation_branches 4
  = Some (test_of 4, fun g => (Val tt, show core_switch_1_box g))
  /\ nth_error validation_branches 5
     = Some (test_of 5, fun g => (Val tt, show core_switch_2_box g)).
Proof. split; reflexivity. Qed.

(** C10: the tests of the two address branches never come out true,
    because [ip_address] either raises or returns an object that is
    truthy; so neither the Core Switch 1 box of line 128 nor the box of
    line 131 is ever among the message boxes of [validation]. *)
Theorem address_branches_are_dead (g : MyGUIClass) :
  (forall a, ipaddress.bool_address a = true)
  /\ fst (test_of 4 g) <> Val true
  /\ fst (test_of 5 g) <> Val true
  /\ ~ In core_switch_1_box (boxes_of validation g)
  /\ ~ In core_switch_2_box (boxes_of validation g).
Proof.
  split; [reflexivity|].
  split; [|split].
  - unfold test_of. cbn [nth validation_branches fst].
    cbv [bind get lift ret].
    destruct (ipaddress.ip_address _); cbn; discriminate.
  - unfold test_of. cbn [nth validation_branches fst].
    cbv [bind get lift ret].
    destruct (bool_str _); [|cbn; discriminate].
    destruct (ipaddress.ip_address _); cbn; discriminate.
  - split; rewrite validation_boxes; intros [H|[]];
      (destruct (first_failing (vars g)) as [[]|];
       vm_compute in H; discriminate).
Qed.

(** ** The event loop *)

Lemma mainloop_cons ev evs g :
  mainloop (ev :: evs) g =
  match dispatch ev g with
  | (Val _, g') => mainloop evs g'
  | (Exc e, g') => (Exc e, g')
  end.
Proof. reflexivity. Qed.

Lemma mainloop_app evs1 :
  forall evs2 g,
    mainloop (evs1 ++ evs2) g =
    match mainloop evs1 g with
    | (Val _, g') => mainloop evs2 g'
    | (Exc e, g') => (Exc e, g')
    end.
Proof.
  induction evs1 as [|ev evs1 IH]; intros evs2 g; [reflexivity|].
  cbn [app]. rewrite !mainloop_cons.
  destruct (dispatch ev g) as [[[]|e] g']; [apply IH | reflexivity].
Qed.

Lemma reported_is_error r : is_error (reported r) = true.
Proof. destruct r; reflexivity. Qed.

Lemma get_folder_path_run chosen g :
  get_folder_path chosen g =
  (Val tt,
   {| vars := textvariable_set FolderPath_entry
                               match chosen with
                               | Some path => path
                               | None => ""
                               end (vars g);
      wstate := wstate g;
      master_exists := master_exists g;
      shown := shown g |}).
Proof. destruct chosen; reflexivity. Qed.

(** What one event does to a state, case by case. *)
Lemma dispatch_run ev g :
  dispatch ev g =
  if negb (master_exists g) then (Val tt, g)
  else
    match ev with
    | edit w text =>
        match wstate g w with
        | disabled => (Val tt, g)
        | _ => (Val tt,
                {| vars := textvariable_set w text (vars g);
                   wstate := wstate g;
                   master_exists := master_exists g;
                   shown := shown g |})
        end
    | press_submit =>
        match wstate g submit_button with
        | disabled => (Val tt, g)
        | _ => (Val tt, match first_failing (vars g) with
                        | Some r => show (reported r) g
                        | None => submitted g
                        end)
        end
    | press_browse chosen =>
        match wstate g browse_button with
        | disabled => (Val tt, g)
        | _ => get_folder_path chosen g
        end
    | press_cancel =>
        match wstate g cancel_button with
        | disabled => (Val tt, g)
        | _ => (Exc SystemExit, g)
        end
    | close_window => (Exc SystemExit, g)
    end.
Proof.
  unfold dispatch. destruct (negb (master_exists g)); [reflexivity|].
  destruct ev; try reflexivity.
  destruct (wstate g submit_button); try reflexivity;
    apply validation_run.
Qed.

Lemma forallb_snoc {A} (p : A -> bool) (l : list A) (x : A) :
  forallb p (l ++ [x])%list = forallb p l && p x.
Proof.
  induction l as [|a l IH]; cbn.
  - apply andb_true_r.
  - rewrite IH. apply andb_assoc.
Qed.

Lemma init_editing : editing __init__.
Proof. repeat split. Qed.

(** A destroyed window takes no event. *)
Lemma dispatch_handed_over ev g :
  master_exists g = false -> dispatch ev g = (Val tt, g).
Proof. intros H. rewrite dispatch_run, H. reflexivity. Qed.

(** The handler of one event, once it has returned, leaves the program
    in one of the two shapes. *)
Lemma dispatch_shape ev g :
  editing g \/ handed_over g ->
  editing (snd (dispatch ev g)) \/ handed_over (snd (dispatch ev g)).
Proof.
  intros [Hg|Hg].
  2:{ right. rewrite dispatch_handed_over; [exact Hg | apply Hg]. }
  destruct Hg as (Hm & Hw & Hs).
  rewrite dispatch_run, Hm. cbn [negb].
  destruct ev as [w text| |chosen| |].
  - left. destruct (wstate g w); repeat split; assumption.
  - rewrite Hw. cbn [wstate __init__].
    destruct (first_failing (vars g)) as [r|]; cbn [snd].
    + left. repeat split; try assumption.
      cbn [show shown]. rewrite forallb_snoc, Hs, reported_is_error.
      reflexivity.
    + right. split; [apply submitted_master_exists|]. split.
      * intros w Hne. rewrite submitted_wstate.
        destruct w; try reflexivity. contradiction Hne. reflexivity.
      * exists (shown g). split; [exact Hs | apply submitted_shown].
  - rewrite Hw. cbn [wstate __init__]. rewrite get_folder_path_run.
    left. repeat split; assumption.
  - rewrite Hw. cbn [wstate __init__]. left. repeat split; assumption.
  - left. repeat split; assumption.
Qed.

Lemma mainloop_shape evs :
  forall g,
    editing g \/ handed_over g ->
    editing (snd (mainloop evs g)) \/ handed_over (snd (mainloop evs g)).
Proof.
  induction evs as [|ev evs IH]; intros g Hg; [exact Hg|].
  rewrite mainloop_cons.
  pose proof (dispatch_shape ev Hg) as Hd.
  destruct (dispatch ev g) as [[[]|e] g']; cbn [snd] in *.
  - apply IH, Hd.
  - exact Hd.
Qed.


(** X4: when the handlers of any sequence of events have returned, the
    message boxes shown so far are error boxes alone if the root window
    still exists, and error boxes followed by the one information box if
    it has been destroyed.  So the information box is shown at most once,
    no box is shown after it, and the call of [validation] that shows it
    (line 149, the window still existing) has destroyed the window
    (line 152) when it returns. *)
Theorem information_box_is_shown_last_and_once (evs : list event) :
  exists errors,
    forallb is_error errors = true
    /\ shown (after evs) =
       if master_exists (after evs) then errors
       else (errors ++ [information_box])%list.
Proof.
  unfold after.
  destruct (mainloop_shape evs (or_introl init_editing))
    as [(Hm & _ & Hs)|(Hm & _ & errors & He & Hs)]; rewrite Hm.
  - exists (shown (snd (mainloop evs __init__))). split; [exact Hs|reflexivity].
  - exists errors. split; assumption.
Qed.

Lemma first_failing_none_passes v r :
  first_failing v = None -> passes v r = true.
Proof.
  intros H. apply first_failing_none in H.
  unfold rules_in_order in H. cbn [forallb] in H.
  repeat (apply andb_prop in H; destruct H as [? H]).
  destruct r; assumption.
Qed.

(** A form on which some rule fails gets an error box and nothing else. *)
Lemma failing_rule_error_box g r :
  passes (vars g) r = false ->
  exists title message,
    validation g = (Val tt, show (ShowError title message) g).
Proof.
  intros Hr. rewrite validation_run.
  destruct (first_failing (vars g)) as [r'|] eqn:Hf.
  - destruct r'; eexists; eexists; reflexivity.
  - apply (first_failing_none_passes _ r) in Hf. congruence.
Qed.

Lemma textvariable_set_FolderPath w text v :
  w <> FolderPath_entry ->
  FolderPath_var (textvariable_set w text v) = FolderPath_var v.
Proof. intros H. destruct w; try reflexivity. contradiction H. reflexivity. Qed.

(** Without Browse, an event leaves the results folder as it is. *)
Lemma dispatch_keeps_folder ev g :
  editing g \/ handed_over g ->
  is_browse ev = false ->
  FolderPath_var (vars (snd (dispatch ev g))) = FolderPath_var (vars g).
Proof.
  intros [Hg|Hg] Hev.
  2:{ rewrite dispatch_handed_over; [reflexivity | apply Hg]. }
  destruct Hg as (Hm & Hw & Hs).
  rewrite dispatch_run, Hm. cbn [negb].
  destruct ev as [w text| |chosen| |]; try discriminate.
  - destruct (wstate g w) eqn:Eq; try reflexivity; cbn [snd vars];
      apply textvariable_set_FolderPath; intros ->;
      rewrite Hw in Eq; discriminate.
  - rewrite Hw. cbn [wstate __init__].
    destruct (first_failing (vars g)); cbn [snd];
      [reflexivity | rewrite submitted_vars; reflexivity].
  - rewrite Hw. reflexivity.
  - reflexivity.
Qed.

Lemma mainloop_keeps_folder evs :
  forall g,
    editing g \/ handed_over g ->
    forallb (fun ev => negb (is_browse ev)) evs = true ->
    FolderPath_var (vars (snd (mainloop evs g))) = FolderPath_var (vars g).
Proof.
  induction evs as [|ev evs IH]; intros g Hg Hevs; [reflexivity|].
  cbn [forallb] in Hevs. apply andb_prop in Hevs. destruct Hevs as [Hev Hevs].
  apply negb_true_iff in Hev.
  rewrite mainloop_cons.
  pose proof (dispatch_shape ev Hg) as Hd.
  pose proof (dispatch_keeps_folder ev Hg Hev) as Hk.
  destruct (dispatch ev g) as [[[]|e] g']; cbn [snd] in *.
  - rewrite IH; assumption.
  - exact Hk.
Qed.

(** X2: the results folder changes through the Browse button only:
    whatever the user has done before, typing, choosing in a combobox,
    pressing Submit or Cancel leave it as it is, because [__init__]
    disables its entry. *)
Theorem folder_changes_by_browse_only (before evs : list event) :
  forallb (fun ev => negb (is_browse ev)) evs = true ->
  FolderPath_var (vars (after (before ++ evs)))
  = FolderPath_var (vars (after before)).
Proof.
  intros Hevs. unfold after. rewrite mainloop_app.
  pose proof (mainloop_shape before (or_introl init_editing)) as Hshape.
  destruct (mainloop before __init__) as [[[]|e] g]; cbn [snd] in *.
  - apply mainloop_keeps_folder; assumption.
  - reflexivity.
Qed.

Lemma folder_changes_by_browse_only_witness :
  forallb (fun ev => negb (is_browse ev))
          [edit FolderPath_entry "/etc"; press_submit] = true
  /\ FolderPath_var
       (vars (after ([press_browse (Some "/tmp/out")]
                       ++ [edit FolderPath_entry "/etc"; press_submit])))
     = FolderPath_var (vars (after [press_browse (Some "/tmp/out")])).
Proof.
  assert (H : forallb (fun ev => negb (is_browse ev))
                      [edit FolderPath_entry "/etc"; press_submit] = true)
    by reflexivity.
  split; [exact H|].
  exact (folder_changes_by_browse_only [press_browse (Some "/tmp/out")] _ H).
Defined.

Lemma dispatch_without_folder ev g :
  editing g ->
  FolderPath_var (vars g) = "" ->
  picks_folder ev = false ->
  editing (snd (dispatch ev g))
  /\ FolderPath_var (vars (snd (dispatch ev g))) = "".
Proof.
  intros Hg Hf Hev.
  destruct (is_browse ev) eqn:Hb.
  - destruct ev as [| |chosen| |]; try discriminate.
    destruct Hg as (Hm & Hw & Hs).
    rewrite dispatch_run, Hm, Hw. cbn [negb wstate __init__].
    rewrite get_folder_path_run. cbn [snd vars].
    split; [repeat split; assumption|].
    destruct chosen as [[|c path]|]; try reflexivity. discriminate.
  - rewrite (dispatch_keeps_folder ev (or_introl Hg) Hb).
    split; [|exact Hf].
    destruct Hg as (Hm & Hw & Hs).
    rewrite dispatch_run, Hm. cbn [negb].
    destruct ev as [w text| |chosen| |]; try discriminate.
    + destruct (wstate g w); repeat split; assumption.
    + rewrite Hw. cbn [wstate __init__].
      destruct (first_failing (vars g)) as [r|] eqn:Hr; cbn [snd].
      * repeat split; try assumption.
        cbn [show shown]. rewrite forallb_snoc, Hs, reported_is_error.
        reflexivity.
      * apply (first_failing_none_passes _ resultsFolder) in Hr.
        cbn [passes] in Hr. rewrite Hf in Hr. discriminate.
    + rewrite Hw. repeat split; assumption.
    + repeat split; assumption.
Qed.

Lemma mainloop_without_folder evs :
  forall g,
    editing g ->
    FolderPath_var (vars g) = "" ->
    forallb (fun ev => negb (picks_folder ev)) evs = true ->
    editing (snd (mainloop evs g)).
Proof.
  induction evs as [|ev evs IH]; intros g Hg Hf Hevs; [exact Hg|].
  cbn [forallb] in Hevs. apply andb_prop in Hevs. destruct Hevs as [Hev Hevs].
  apply negb_true_iff in Hev.
  rewrite mainloop_cons.
  pose proof (dispatch_without_folder ev Hg Hf Hev) as [Hd Hk].
  destruct (dispatch ev g) as [[[]|e] g']; cbn [snd] in *.
  - apply IH; assumption.
  - exact Hd.
Qed.

(** X3: the form is never handed over before a results folder has been
    picked: as long as the user has not chosen a directory in the Browse
    dialog, whatever was typed and however often Submit was pressed, the
    window still exists, no widget is disabled by [validation] and no
    information box has been shown. *)
Theorem no_submission_without_a_picked_folder (evs : list event) :
  forallb (fun ev => negb (picks_folder ev)) evs = true ->
  controller_state (after evs) = Editing
  /\ (forall w, wstate (after evs) w = wstate __init__ w)
  /\ ~ In information_box (shown (after evs)).
Proof.
  intros Hevs.
  destruct (mainloop_without_folder evs init_editing eq_refl Hevs)
    as (Hm & Hw & Hs).
  fold (after evs) in Hm, Hw, Hs.
  split; [unfold controller_state; rewrite Hm; reflexivity|].
  split; [exact Hw|].
  intros Hin. rewrite forallb_forall in Hs. apply Hs in Hin. discriminate.
Qed.

Lemma no_submission_without_a_picked_folder_witness :
  forallb (fun ev => negb (picks_folder ev))
          (fill "HQ" "admin" "x" "No" "" "10.0.0.1" "" None
                ++ [press_submit]) = true
  /\ controller_state
       (after (fill "HQ" "admin" "x" "No" "" "10.0.0.1" "" None
                    ++ [press_submit])) = Editing.
Proof.
  assert (H : forallb (fun ev => negb (picks_folder ev))
                      (fill "HQ" "admin" "x" "No" "" "10.0.0.1" "" None
                            ++ [press_submit]) = true) by reflexivity.
  split; [exact H|].
  exact (proj1 (no_submission_without_a_picked_folder _ H)).
Defined.

(** An event other than Cancel or closing the window returns normally;
    no event raises anything but [SystemExit]. *)
Lemma dispatch_result ev g :
  (is_quit ev = false -> fst (dispatch ev g) = Val tt)
  /\ (forall e, fst (dispatch ev g) = Exc e -> e = SystemExit).
Proof.
  rewrite dispatch_run.
  destruct (negb (master_exists g)); [split; [reflexivity|discriminate]|].
  destruct ev as [w text| |chosen| |].
  - destruct (wstate g w); split; (reflexivity || discriminate).
  - destruct (wstate g submit_button); split; (reflexivity || discriminate).
  - rewrite get_folder_path_run.
    destruct (wstate g browse_button); split; (reflexivity || discriminate).
  - split; [discriminate|].
    destruct (wstate g cancel_button); cbn [fst]; congruence.
  - split; [discriminate|]. cbn [fst]. congruence.
Qed.

(** X5: the event loop ends abnormally through Cancel or the closing of
    the window only: a run without them returns normally from any state,
    however malformed the input and however often Submit is pressed, and
    the only exception a run can end in is the [SystemExit] of
    [quit_script]. *)
Theorem only_quit_script_ends_the_loop (evs : list event) (g : MyGUIClass) :
  (forallb (fun ev => negb (is_quit ev)) evs = true ->
   fst (mainloop evs g) = Val tt)
  /\ (forall e, fst (mainloop evs g) = Exc e -> e = SystemExit).
Proof.
  revert g. induction evs as [|ev evs IH]; intros g.
  - split; [reflexivity|discriminate].
  - rewrite mainloop_cons.
    destruct (dispatch_result ev g) as [Hval Hexc].
    destruct (dispatch ev g) as [[[]|e] g']; cbn [fst] in *.
    + split.
      * intros H. cbn [forallb] in H. apply andb_prop in H.
        apply (IH g'), H.
      * apply (IH g').
    + split.
      * intros H. cbn [forallb] in H. apply andb_prop in H.
        destruct H as [H _]. apply negb_true_iff in H.
        specialize (Hval H). discriminate.
      * intros e' He'. inversion He'; subst. apply Hexc. reflexivity.
Qed.

Lemma only_quit_script_ends_the_loop_witness :
  forallb (fun ev => negb (is_quit ev))
          (fill "HQ" "admin" "x" "No" "" "999.999.999.999" "" None
                ++ [press_submit; press_submit]) = true
  /\ fst (mainloop (fill "HQ" "admin" "x" "No" "" "999.999.999.999" "" None
                         ++ [press_submit; press_submit]) __init__) = Val tt.
Proof.
  assert (H : forallb (fun ev => negb (is_quit ev))
                      (fill "HQ" "admin" "x" "No" "" "999.999.999.999" ""
                            None ++ [press_submit; press_submit]) = true)
    by reflexivity.
  split; [exact H|].
  exact (proj1 (only_quit_script_ends_the_loop _ __init__) H).
Defined.

(** X6: while the window exists, Cancel and the closing of the window end
    the program at once: the run up to there is kept as it is, the events
    after it are never processed, and the exception is [SystemExit]. *)
Theorem quit_ends_the_program_at_once (before rest : list event) (ev : event) :
  is_quit ev = true ->
  fst (mainloop before __init__) = Val tt ->
  controller_state (after before) = Editing ->
  mainloop (before ++ ev :: rest) __init__ = (Exc SystemExit, after before).
Proof.
  intros Hev Hval Hed. unfold controller_state, after in *.
  destruct (mainloop_shape before (or_introl init_editing))
    as [(Hm & Hw & _)|(Hm & _)]; [|rewrite Hm in Hed; discriminate].
  rewrite mainloop_app.
  destruct (mainloop before __init__) as [[[]|e] g]; cbn [fst snd] in *;
    [|discriminate].
  rewrite mainloop_cons, dispatch_run, Hm. cbn [negb].
  destruct ev; try discriminate.
  - rewrite Hw. reflexivity.
  - reflexivity.
Qed.

Lemma quit_ends_the_program_at_once_witness :
  is_quit press_cancel = true
  /\ fst (mainloop [edit Site_Name_entry "HQ"; press_submit] __init__) = Val tt
  /\ controller_state (after [edit Site_Name_entry "HQ"; press_submit])
     = Editing
  /\ mainloop ([edit Site_Name_entry "HQ"; press_submit]
                 ++ press_cancel :: [edit Username_entry "admin"]) __init__
     = (Exc SystemExit, after [edit Site_Name_entry "HQ"; press_submit]).
Proof.
  assert (H1 : is_quit press_cancel = true) by reflexivity.
  assert (H2 : fst (mainloop [edit Site_Name_entry "HQ"; press_submit]
                             __init__) = Val tt) by reflexivity.
  assert (H3 : controller_state
                 (after [edit Site_Name_entry "HQ"; press_submit]) = Editing)
    by reflexivity.
  split; [exact H1|]. split; [exact H2|]. split; [exact H3|].
  exact (@quit_ends_the_program_at_once
           _ [edit Username_entry "admin"] _ H1 H2 H3).
Defined.

Lemma dispatch_keeps_disabled ev g w :
  wstate g w = disabled -> wstate (snd (dispatch ev g)) w = disabled.
Proof.
  intros Hw. rewrite dispatch_run.
  destruct (negb (master_exists g)); [exact Hw|].
  destruct ev as [w' text| |chosen| |].
  - destruct (wstate g w'); exact Hw.
  - destruct (wstate g submit_button); try exact Hw;
      (destruct (first_failing (vars g)); cbn [snd];
       [exact Hw
       | rewrite submitted_wstate;
         destruct (widget_eqb w cancel_button) eqn:Eq;
         [destruct w; try discriminate; exact Hw | reflexivity]]).
  - rewrite get_folder_path_run.
    destruct (wstate g browse_button); exact Hw.
  - destruct (wstate g cancel_button); exact Hw.
  - exact Hw.
Qed.

(** X7: no code path enables a widget: from any state and for any events,
    a widget that is disabled stays disabled. *)
Theorem disabled_widgets_stay_disabled
        (evs : list event) (g : MyGUIClass) (w : widget) :
  wstate g w = disabled ->
  wstate (snd (mainloop evs g)) w = disabled.
Proof.
  revert g. induction evs as [|ev evs IH]; intros g Hw; [exact Hw|].
  rewrite mainloop_cons.
  pose proof (dispatch_keeps_disabled ev g w Hw) as Hd.
  destruct (dispatch ev g) as [[[]|e] g']; cbn [snd] in *.
  - apply IH, Hd.
  - exact Hd.
Qed.

Lemma disabled_widgets_stay_disabled_witness :
  wstate __init__ FolderPath_entry = disabled
  /\ wstate (snd (mainloop [edit FolderPath_entry "/etc"; press_submit;
                            press_browse (Some "/tmp/out")] __init__))
            FolderPath_entry = disabled.
Proof.
  assert (H : wstate __init__ FolderPath_entry = disabled) by reflexivity.
  split; [exact H|].
  exact (disabled_widgets_stay_disabled _ __init__ FolderPath_entry H).
Defined.

(** X8: [validation] never looks at the jump server or at the debugging
    choice: changing either of them changes nothing in the message box
    it answers with, and thereby in whether the form is accepted. *)
Theorem jump_server_and_debugging_are_not_validated
        (g g' : MyGUIClass) (w : widget) (text : string) :
  w = JumpServer \/ w = Debugging ->
  vars g' = textvariable_set w text (vars g) ->
  first_failing (vars g') = first_failing (vars g)
  /\ boxes_of validation g' = boxes_of validation g.
Proof.
  intros Hw Hvars.
  assert (Hsame : first_failing (vars g') = first_failing (vars g)).
  { rewrite Hvars. destruct Hw as [-> | ->]; reflexivity. }
  split; [exact Hsame|].
  rewrite !validation_boxes, Hsame. reflexivity.
Qed.

Lemma jump_server_and_debugging_are_not_validated_witness :
  (JumpServer = JumpServer \/ JumpServer = Debugging)
  /\ vars (snd (dispatch (edit JumpServer "None") scenario_A))
     = textvariable_set JumpServer "None" (vars scenario_A)
  /\ boxes_of validation (snd (dispatch (edit JumpServer "None") scenario_A))
     = boxes_of validation scenario_A.
Proof.
  assert (H1 : JumpServer = JumpServer \/ JumpServer = Debugging)
    by (left; reflexivity).
  assert (H2 : vars (snd (dispatch (edit JumpServer "None") scenario_A))
               = textvariable_set JumpServer "None" (vars scenario_A))
    by reflexivity.
  split; [exact H1|]. split; [exact H2|].
  exact (proj2 (jump_server_and_debugging_are_not_validated _ _ H1 H2)).
Defined.

(** X9: the chain has no emptiness test for Core Switch 1, yet the field
    is mandatory: [ip_address] raises on the empty string, so a form with
    an empty Core Switch 1 always gets an error box and is never
    accepted, whatever the other fields hold. *)
Theorem core_switch_1_is_mandatory (g : MyGUIClass) :
  IP_Address1_var (vars g) = "" ->
  exists title message,
    validation g = (Val tt, show (ShowError title message) g).
Proof.
  intros Hempty. apply (failing_rule_error_box g coreSwitch1).
  cbn [passes]. rewrite Hempty. vm_compute. reflexivity.
Qed.

Lemma core_switch_1_is_mandatory_witness :
  IP_Address1_var (vars scenario_A_no_switch) = ""
  /\ exists title message,
      validation scenario_A_no_switch
      = (Val tt, show (ShowError title message) scenario_A_no_switch).
Proof.
  assert (H : IP_Address1_var (vars scenario_A_no_switch) = "")
    by reflexivity.
  split; [exact H|]. exact (core_switch_1_is_mandatory scenario_A_no_switch H).
Defined.

(** X10: cancelling the directory dialog always leaves a form that
    cannot be submitted: whatever the form held, the next [validation]
    answers with an error box and changes nothing else. *)
Theorem cancelled_dialog_blocks_submission (g : MyGUIClass) :
  exists title message,
    validation (snd (get_folder_path None g))
    = (Val tt,
       show (ShowError title message) (snd (get_folder_path None g))).
Proof.
  apply (failing_rule_error_box (snd (get_folder_path None g)) resultsFolder).
  rewrite get_folder_path_run. reflexivity.
Qed.

Lemma slash_is_rejected s : contains "/" s = true -> valid_ip s = false.
Proof.
  intros H. unfold valid_ip, ipaddress.ip_address,
              ipaddress.IPv4Address__init__, ipaddress.IPv6Address__init__.
  rewrite H. reflexivity.
Qed.

(** X11: a switch field that holds a slash, as a network in prefix
    notation does, is never accepted: both address constructors refuse it
    before parsing, so [validation] answers with an error box. *)
Theorem prefix_notation_is_rejected (g : MyGUIClass) :
  contains "/" (IP_Address1_var (vars g)) = true
  \/ contains "/" (IP_Address2_var (vars g)) = true ->
  exists title message,
    validation g = (Val tt, show (ShowError title message) g).
Proof.
  intros [H|H].
  - apply (failing_rule_error_box g coreSwitch1).
    cbn [passes]. apply slash_is_rejected, H.
  - apply (failing_rule_error_box g coreSwitch2).
    cbn [passes]. rewrite (slash_is_rejected _ H).
    destruct (IP_Address2_var (vars g)); [discriminate|reflexivity].
Qed.

Lemma prefix_notation_is_rejected_witness :
  (contains "/" (IP_Address1_var (vars scenario_A_prefix)) = true
   \/ contains "/" (IP_Address2_var (vars scenario_A_prefix)) = true)
  /\ exists title message,
      validation scenario_A_prefix
      = (Val tt, show (ShowError title message) scenario_A_prefix).
Proof.
  assert (H : contains "/" (IP_Address1_var (vars scenario_A_prefix)) = true
              \/ contains "/" (IP_Address2_var (vars scenario_A_prefix))
                 = true) by (left; reflexivity).
  split; [exact H|]. exact (prefix_notation_is_rejected scenario_A_prefix H).
Defined.
